(** * a-multistep-form: the step-progression contract of the wizard

    A shallow embedding of [src/context/formContext.tsx] (the shared step
    state, its provider and accessor) and of the wizard components
    [MultiStepForm], [MultiStepFormContent], [EnhancedStepper] and
    [Navigation], followed by the properties of the step index, of the
    stepper indicator and of the navigation controls.

    Conventions of the embedding:
    - a JavaScript [number] holding a step index is a [Z]; [Math.min] and
      [Math.max] are [Z.min] and [Z.max]. A [number] is a double: [prev + 1]
      and [prev - 1] are the exact sum and difference, as on [Z], when
      [prev] is a safe integer ([isSafeInteger], at most 2^53 - 1 in
      absolute value), and are rounded beyond. What is stated of the
      result of the arithmetic is stated of safe integers;
    - [Record<string, any>] is a [gmap string JsValue];
    - a [throw] is the [Throw] constructor of [result];
    - a component is a function from its props (and, for a component that
      reads hooks, from the hook state) to the view it returns; only the
      parts of the JSX that depend on props or state are kept in the view;
    - an event handler is a function on the [World]: the two [useState]
      cells of the provider plus whatever the caller's completion callback
      acts on. *)

From Stdlib Require Import ZArith QArith.
From stdpp Require Import base list gmap strings.

Local Open Scope string_scope.
Local Open Scope Z_scope.

(** ** Values, exceptions *)

(** The values a form data bag holds ([any] in the source). *)
Inductive JsValue : Type :=
| JsNull
| JsBoolean (b : bool)
| JsNumber (n : Z)
| JsString (s : string).

Abbreviation FormData := (gmap string JsValue).

(** What a [throw] carries: [new Error(message)], or the [TypeError] the
    engine raises when a property of [undefined] is read. *)
Inductive Exn : Type :=
| Error (message : string)
| TypeError.

Inductive result (A : Type) : Type :=
| Ok (a : A)
| Throw (e : Exn).
Arguments Ok {A} a.
Arguments Throw {A} e.

(** [result] is a monad: a [Throw] skips the rest of the computation. *)
#[global] Instance result_ret : MRet result := fun _ a => Ok a.
#[global] Instance result_bind : MBind result := fun _ _ k r =>
  match r with
  | Ok a => k a
  | Throw e => Throw e
  end.

(** Evaluation of a list of computations from left to right, stopping at
    the first that throws (what [Array.prototype.map] does when its
    callback throws). *)
Fixpoint sequence {A} (rs : list (result A)) : result (list A) :=
  match rs with
  | [] => Ok []
  | r :: rs' => a ← r; l ← sequence rs'; Ok (a :: l)
  end.

(** ** React nodes and [React.Children.toArray] *)

(** [ReactNode], as far as the wizard looks into it. An element carries
    the props of [StepProps]: a title and the content to render. *)
#[warnings="-register-all"]
Inductive ReactNode : Type :=
| RNull                                   (* null, undefined *)
| RBool (b : bool)
| RText (s : string)
| RNumber (n : Z)
| RElement (title : string) (content : ReactNode)
| RArray (nodes : list ReactNode).

(** [React.Children.toArray]: nested arrays are flattened, empty nodes
    (null, undefined, booleans) are dropped, strings, numbers and elements
    are kept in order. It does not look inside an element. *)
Fixpoint toArray (children : ReactNode) : list ReactNode :=
  match children with
  | RNull | RBool _ => []
  | RArray nodes =>
      (fix flat (l : list ReactNode) : list ReactNode :=
         match l with
         | [] => []
         | c :: l' => (toArray c ++ flat l')%list
         end) nodes
  | _ => [children]
  end.

(** [{ step: number; title: string }] *)
Record StepInfo : Type := { step : Z; title : string }.

(** [step.props.title]: a string or a number has no [props], and reading
    [title] of [undefined] is a TypeError. *)
Definition props_title (node : ReactNode) : result string :=
  match node with
  | RElement t _ => Ok t
  | _ => Throw TypeError
  end.

(** [steps.map((step, index) => ({ step: index + 1, title: step.props.title }))] *)
Definition stepsData (steps : list ReactNode) : result (list StepInfo) :=
  sequence (imap (fun index node =>
                    t ← props_title node;
                    Ok {| step := Z.of_nat index + 1; title := t |}) steps).

(** [array[i]] for a number [i]: [undefined] out of range. *)
Definition index {A} (l : list A) (i : Z) : option A :=
  if 0 <=? i then l !! Z.to_nat i else None.

(** ** Style pass-through *)

Abbreviation CSSProperties := (gmap string string).

Record StyleProps : Type := {
  className : option string;
  style : option CSSProperties
}.

Definition noStyle : StyleProps := {| className := None; style := None |}.

(** [`${base} ${className || ''}`] *)
Definition withClass (base : string) (cls : option string) : string :=
  base ++ " " ++ (match cls with
                  | Some c => c
                  | None => ""
                  end).

(** ** Shared step state: [formContext.tsx] *)

(** The two [useState] cells of [FormProvider]. *)
Record FormState : Type := {
  currentStep : Z;
  formData : FormData
}.

(** [useState(0)] and [useState({})]. *)
Definition initialState : FormState :=
  {| currentStep := 0; formData := ∅ |}.

(** [React.SetStateAction<S>]: a new value, or a function of the previous
    one. *)
Inductive SetStateAction (S : Type) : Type :=
| NewValue (s : S)
| Updater (f : S -> S).
Arguments NewValue {S} s.
Arguments Updater {S} f.

Definition applyAction {S} (action : SetStateAction S) (prev : S) : S :=
  match action with
  | NewValue s => s
  | Updater f => f prev
  end.

(** ** The stepper indicator *)

(** What the circle of a step holds: the check mark, or a dot with its
    classes. *)
Inductive Icon : Type :=
| CheckMark
| Dot (cls : string).

(** One step of the stepper. Of each class name only the part that
    depends on the props is kept. [connector] is [None] when no connector
    is rendered, and its background colour otherwise. *)
Record StepItemView : Type := {
  key : Z;
  circleClass : string;
  scale : Q;
  icon : Icon;
  titleClass : string;
  fontWeight : string;
  caption : string;
  connector : option string
}.

Record StepperView : Type := {
  stepper_className : string;
  stepper_style : option CSSProperties;
  items : list StepItemView
}.

Definition EnhancedStepper (steps : list StepInfo) (currentStep : Z)
    (sp : StyleProps) : StepperView :=
  {| stepper_className :=
       withClass "flex mx-auto items-center justify-center font-sans w-max overflow-x-auto mb-2"
                 (className sp);
     stepper_style := style sp;
     items :=
       imap (fun index s =>
         {| key := step s;
            circleClass :=
              if currentStep >=? step s
              then "border-none border-[#788191] bg-[#788191]"
              else "border-[#EAECF0]";
            scale := if currentStep =? step s then (11 # 10)%Q else (1 # 1)%Q;
            icon :=
              if currentStep >? step s then CheckMark
              else Dot (if currentStep =? step s
                        then "bg-[#EAECF0] drop-shadow-md"
                        else "bg-[#EAECF0]");
            titleClass :=
              if currentStep =? step s then "text-[#3E3E45]" else "text-[#71717A]";
            fontWeight := if currentStep =? step s then "bold" else "normal";
            caption := title s;
            connector :=
              if Z.of_nat index <? Z.of_nat (length steps) - 1
              then Some (if currentStep >? step s then "#788191" else "#EAECF0")
              else None |}) steps |}.

(** ** The navigation controls *)

Record Button (H : Type) : Type := {
  text : string;
  onClick : H;
  disabled : bool
}.
Arguments text {H} b.
Arguments onClick {H} b.
Arguments disabled {H} b.

Record NavigationView (H : Type) : Type := {
  nav_className : string;
  nav_style : option CSSProperties;
  previousButton : Button H;
  mainButton : Button H
}.
Arguments nav_className {H} n.
Arguments nav_style {H} n.
Arguments previousButton {H} n.
Arguments mainButton {H} n.

(** [Navigation], for any type [H] of callbacks. *)
Definition Navigation {H : Type} (isFirstStep isLastStep : bool)
    (onNext onPrev onSubmit : H) (sp : StyleProps) : NavigationView H :=
  {| nav_className := withClass "flex justify-between mt-8" (className sp);
     nav_style := style sp;
     previousButton :=
       {| text := "Previous"; onClick := onPrev; disabled := isFirstStep |};
     mainButton :=
       if isLastStep
       then {| text := "Submit"; onClick := onSubmit; disabled := false |}
       else {| text := "Next"; onClick := onNext; disabled := false |} |}.

Section Wizard.

(** What the caller's completion callback acts on; the wizard never looks
    at it. *)
Context {Ext : Type}.

Record World : Type := {
  state : FormState;
  outside : Ext
}.

(** An event handler [() => void]. *)
Definition Handler : Type := World -> World.

Record FormContextType : Type := {
  ctx_currentStep : Z;
  setCurrentStep : SetStateAction Z -> Handler;
  ctx_formData : FormData;
  setFormData : SetStateAction FormData -> Handler
}.

(** The context value [FormProvider] passes down when its cells hold [st].
    A setter acts on the cell as it is when the update is applied. *)
Definition FormProvider (st : FormState) : FormContextType :=
  {| ctx_currentStep := currentStep st;
     setCurrentStep := fun action w =>
       {| state := {| currentStep := applyAction action (currentStep (state w));
                      formData := formData (state w) |};
          outside := outside w |};
     ctx_formData := formData st;
     setFormData := fun action w =>
       {| state := {| currentStep := currentStep (state w);
                      formData := applyAction action (formData (state w)) |};
          outside := outside w |} |}.

(** [useFormContext]. Its argument is what [useContext(FormContext)]
    returns: the value of the nearest provider, or the default
    [undefined] ([None]) when there is none. *)
Definition useFormContext (context : option FormContextType)
  : result FormContextType :=
  match context with
  | None => Throw (Error "useFormContext must be used within a FormProvider")
  | Some c => Ok c
  end.

(** ** The wizard: [MultiStepForm] and [MultiStepFormContent] *)

Record MultiStepFormProps : Type := {
  children : ReactNode;
  onSubmit : FormData -> Ext -> Ext;
  ownStyle : StyleProps;
  stepperProps : option StyleProps;
  navigationProps : option StyleProps
}.

(** [{...props}] of an optional [StyleProps]. *)
Definition spread (sp : option StyleProps) : StyleProps :=
  match sp with
  | Some p => p
  | None => noStyle
  end.

(** [() => setCurrentStep(prev => Math.min(prev + 1, steps.length - 1))].
    The sum is the one of the source for a safe integer [prev]. *)
Definition onNext (ctx : FormContextType) (steps : list ReactNode) : Handler :=
  setCurrentStep ctx
    (Updater (fun prev => Z.min (prev + 1) (Z.of_nat (length steps) - 1))).

(** [() => setCurrentStep(prev => Math.max(prev - 1, 0))].
    The difference is the one of the source for a safe integer [prev]. *)
Definition onPrev (ctx : FormContextType) : Handler :=
  setCurrentStep ctx (Updater (fun prev => Z.max (prev - 1) 0)).

(** [() => { onSubmit(formData) }], with the [formData] of the render
    that created the handler. The callback is the caller's, written
    outside the provider: it has no hold on the cells. *)
Definition handleSubmit (onSubmit : FormData -> Ext -> Ext)
    (formData : FormData) : Handler :=
  fun w => {| state := state w; outside := onSubmit formData (outside w) |}.

Record WizardView : Type := {
  view_className : string;
  view_style : option CSSProperties;
  stepper : StepperView;
  shownKey : Z;
  shown : option ReactNode;
  navigation : NavigationView Handler
}.

Definition MultiStepFormContent (props : MultiStepFormProps)
    (stepsData : list StepInfo) (context : option FormContextType)
  : result WizardView :=
  ctx ← useFormContext context;
  let steps := toArray (children props) in
  Ok {| view_className := withClass "mx-auto p-2 sm:p-4" (className (ownStyle props));
        view_style := style (ownStyle props);
        stepper := EnhancedStepper stepsData (ctx_currentStep ctx + 1)
                     (spread (stepperProps props));
        shownKey := ctx_currentStep ctx;
        shown := index steps (ctx_currentStep ctx);
        navigation :=
          Navigation (ctx_currentStep ctx =? 0)
                     (ctx_currentStep ctx =? Z.of_nat (length steps) - 1)
                     (onNext ctx steps)
                     (onPrev ctx)
                     (handleSubmit (onSubmit props) (ctx_formData ctx))
                     (spread (navigationProps props)) |}.

(** [MultiStepForm], rendered while the cells of its provider hold [st]. *)
Definition MultiStepForm (props : MultiStepFormProps) (st : FormState)
  : result WizardView :=
  let steps := toArray (children props) in
  data ← stepsData steps;
  MultiStepFormContent props data (Some (FormProvider st)).

(** ** Activating a control *)

Inductive Action : Type :=
| Next
| Previous
| Submit.

(** The handler the last render bound to an action, whether or not the
    control that fires it is on screen. *)
Definition handlerOf (props : MultiStepFormProps) (a : Action) (st : FormState)
  : Handler :=
  let ctx := FormProvider st in
  match a with
  | Next => onNext ctx (toArray (children props))
  | Previous => onPrev ctx
  | Submit => handleSubmit (onSubmit props) (ctx_formData ctx)
  end.

(** One transition: the handler of the current render runs, and the next
    render sees the state it leaves. *)
Definition transition (props : MultiStepFormProps) (a : Action) (w : World)
  : World :=
  handlerOf props a (state w) w.

Definition run (props : MultiStepFormProps) (acts : list Action) (w : World)
  : World :=
  foldl (fun w a => transition props a w) w acts.

(** A click on the control with the given label: it reaches a handler only
    if that control is rendered and not disabled. *)
Definition click (a : Action) (nav : NavigationView Handler) : option Handler :=
  match a with
  | Previous =>
      if disabled (previousButton nav) then None
      else Some (onClick (previousButton nav))
  | Next =>
      if String.eqb (text (mainButton nav)) "Next"
      then Some (onClick (mainButton nav)) else None
  | Submit =>
      if String.eqb (text (mainButton nav)) "Submit"
      then Some (onClick (mainButton nav)) else None
  end.

(** The wizard is rendered, the user clicks, the handler (if any) runs. *)
Definition activate (props : MultiStepFormProps) (a : Action) (w : World)
  : result World :=
  view ← MultiStepForm props (state w);
  Ok (match click a (navigation view) with
      | Some h => h w
      | None => w
      end).

End Wizard.

Arguments World : clear implicits.
Arguments Handler : clear implicits.
Arguments FormContextType : clear implicits.
Arguments MultiStepFormProps : clear implicits.
Arguments WizardView : clear implicits.

(** ** Vocabulary of the properties *)

(** [Number.MAX_SAFE_INTEGER], 2^53 - 1. *)
Definition MAX_SAFE_INTEGER : Z := 9007199254740991.

(** [Number.isSafeInteger], on an integer: the integers on which adding
    and subtracting 1 is exact on doubles. *)
Definition isSafeInteger (n : Z) : Prop :=
  - MAX_SAFE_INTEGER <= n <= MAX_SAFE_INTEGER.

(** The number of declared steps: [steps.length]. *)
Definition stepCount {Ext} (props : MultiStepFormProps Ext) : Z :=
  Z.of_nat (length (toArray (children props))).

Definition isElement (node : ReactNode) : bool :=
  match node with
  | RElement _ _ => true
  | _ => false
  end.

(** A declared step: [<Step title={t}>{content}</Step>]. *)
Definition stepElement (d : string * ReactNode) : ReactNode :=
  RElement d.1 d.2.

(** The three visual states of a step of the stepper, read off its view:
    the check mark, the emphasised title, the empty circle. *)
Inductive StepStatus : Type :=
| Completed
| Active
| Pending.

Definition showsCompleted (v : StepItemView) : bool :=
  match icon v with
  | CheckMark => true
  | Dot _ => false
  end.

Definition showsActive (v : StepItemView) : bool :=
  String.eqb (fontWeight v) "bold".

Definition showsPending (v : StepItemView) : bool :=
  String.eqb (circleClass v) "border-[#EAECF0]".

Definition shownStates (v : StepItemView) : list StepStatus :=
  ((if showsCompleted v then [Completed] else []) ++
   (if showsActive v then [Active] else []) ++
   (if showsPending v then [Pending] else []))%list.

(** A completion callback that records the bag it is called with. *)
Definition recordCall (data : FormData) (calls : list FormData)
  : list FormData :=
  (calls ++ [data])%list.


(** A session at the screen: the clicks of [acts] in order, the wizard
    rendered anew before each. *)
Fixpoint session {Ext} (props : MultiStepFormProps Ext) (acts : list Action)
    (w : World Ext) : result (World Ext) :=
  match acts with
  | [] => Ok w
  | a :: acts' => w' ← activate props a w; session props acts' w'
  end.

(** ** Sample wizards *)

Definition wizardOf (children : ReactNode) : MultiStepFormProps (list FormData) :=
  {| children := children;
     onSubmit := recordCall;
     ownStyle := noStyle;
     stepperProps := None;
     navigationProps := None |}.

(** Three steps titled A, B and C. *)
Definition abcSteps : list (string * ReactNode) :=
  [("A", RText "first"); ("B", RText "second"); ("C", RText "third")].

Definition abcWizard : MultiStepFormProps (list FormData) :=
  wizardOf (RArray (map stepElement abcSteps)).

(** No step at all: [<MultiStepForm onSubmit={...}></MultiStepForm>]. *)
Definition emptyWizard : MultiStepFormProps (list FormData) :=
  wizardOf RNull.


(** The bag [{x: 1}]. *)
Definition bagX1 : FormData := {[ "x" := JsNumber 1 ]}.

Definition freshWorld : World (list FormData) :=
  {| state := initialState; outside := [] |}.

Definition worldAt (step : Z) (bag : FormData) : World (list FormData) :=
  {| state := {| currentStep := step; formData := bag |}; outside := [] |}.

(** ** The [Step] component *)

(** The [div] a [Step] renders. *)
Record StepView : Type := {
  step_className : string;
  step_style : option CSSProperties;
  step_children : ReactNode
}.

(** [Step]: its children in a [div]; the title is not rendered here. *)
Definition Step (children : ReactNode) (title : string) (sp : StyleProps)
  : StepView :=
  {| step_className := withClass "mt-4" (className sp);
     step_style := style sp;
     step_children := children |}.

(** ** Further vocabulary *)

Definition isSubmit (a : Action) : bool :=
  match a with
  | Submit => true
  | _ => false
  end.

(** Whether the control of an action is on screen and enabled when the
    cells hold [st], as [MultiStepFormContent] sets [isFirstStep] and
    [isLastStep]. *)
Definition enabled {Ext} (props : MultiStepFormProps Ext) (a : Action)
    (st : FormState) : bool :=
  match a with
  | Next => negb (currentStep st =? stepCount props - 1)
  | Previous => negb (currentStep st =? 0)
  | Submit => currentStep st =? stepCount props - 1
  end.

(** The other visual cues of a step of the stepper: the filled circle,
    the enlarged circle, the dark title, the dot with a shadow. *)
Definition filledCircle (v : StepItemView) : bool :=
  String.eqb (circleClass v) "border-none border-[#788191] bg-[#788191]".

Definition enlarged (v : StepItemView) : bool :=
  Qeq_bool (scale v) (11 # 10).

Definition darkTitle (v : StepItemView) : bool :=
  String.eqb (titleClass v) "text-[#3E3E45]".

Definition shadowDot (v : StepItemView) : bool :=
  match icon v with
  | Dot cls => String.eqb cls "bg-[#EAECF0] drop-shadow-md"
  | CheckMark => false
  end.

(** The A, B, C wizard with a class name and a style on each part. *)
Definition styledWizard : MultiStepFormProps (list FormData) :=
  {| children := RArray (map stepElement abcSteps);
     onSubmit := recordCall;
     ownStyle := {| className := Some "card"; style := Some {[ "width" := "20rem" ]} |};
     stepperProps := Some {| className := Some "top"; style := None |};
     navigationProps := Some {| className := None; style := Some {[ "gap" := "1rem" ]} |} |}.

(** * Lemmas on the embedding *)

(** ** Transitions and runs *)

Section StepIndex.

Context {Ext : Type} (props : MultiStepFormProps Ext).

Lemma transition_Next (w : World Ext) :
  transition props Next w =
  {| state := {| currentStep :=
                   Z.min (currentStep (state w) + 1) (stepCount props - 1);
                 formData := formData (state w) |};
     outside := outside w |}.
Proof. reflexivity. Qed.

Lemma transition_Previous (w : World Ext) :
  transition props Previous w =
  {| state := {| currentStep := Z.max (currentStep (state w) - 1) 0;
                 formData := formData (state w) |};
     outside := outside w |}.
Proof. reflexivity. Qed.

Lemma transition_Submit (w : World Ext) :
  transition props Submit w =
  {| state := state w;
     outside := onSubmit props (formData (state w)) (outside w) |}.
Proof. reflexivity. Qed.

Lemma run_nil (w : World Ext) : run props [] w = w.
Proof. reflexivity. Qed.

Lemma run_cons a acts (w : World Ext) :
  run props (a :: acts) w = run props acts (transition props a w).
Proof. reflexivity. Qed.

(** Within the bounds, every transition stays within the bounds. *)
Lemma transition_in_range a (w : World Ext) :
  1 <= stepCount props ->
  0 <= currentStep (state w) <= stepCount props - 1 ->
  0 <= currentStep (state (transition props a w)) <= stepCount props - 1.
Proof.
  intros Hn Hw. destruct a.
  - rewrite transition_Next. simpl. lia.
  - rewrite transition_Previous. simpl. lia.
  - rewrite transition_Submit. simpl. lia.
Qed.

Lemma run_in_range acts (w : World Ext) :
  1 <= stepCount props ->
  0 <= currentStep (state w) <= stepCount props - 1 ->
  0 <= currentStep (state (run props acts w)) <= stepCount props - 1.
Proof.
  intros Hn. revert w.
  induction acts as [|a acts IH]; intros w Hw.
  - by rewrite run_nil.
  - rewrite run_cons. apply IH. by apply transition_in_range.
Qed.

(** The cells after a run depend on the cells before it only, not on what
    the completion callback acts on. *)
Lemma transition_state_ext a (w1 w2 : World Ext) :
  state w1 = state w2 ->
  state (transition props a w1) = state (transition props a w2).
Proof.
  intros E. destruct a.
  - rewrite !transition_Next. simpl. by rewrite E.
  - rewrite !transition_Previous. simpl. by rewrite E.
  - by rewrite !transition_Submit.
Qed.

Lemma run_state_ext acts (w1 w2 : World Ext) :
  state w1 = state w2 ->
  state (run props acts w1) = state (run props acts w2).
Proof.
  revert w1 w2. induction acts as [|a acts IH]; intros w1 w2 E.
  - by rewrite !run_nil.
  - rewrite !run_cons. apply IH. by apply transition_state_ext.
Qed.

Lemma run_replicate_Next k (w : World Ext) :
  currentStep (state w) = stepCount props - 1 ->
  state (run props (replicate k Next) w) = state w.
Proof.
  revert w. induction k as [|k IH]; intros w E; [done|].
  simpl replicate. rewrite run_cons.
  assert (state (transition props Next w) = state w) as Hs.
  { rewrite transition_Next. simpl. destruct w as [[c d] o]. simpl in *.
    f_equal. lia. }
  rewrite IH; [done|]. by rewrite Hs.
Qed.

Lemma run_replicate_Previous k (w : World Ext) :
  currentStep (state w) = 0 ->
  state (run props (replicate k Previous) w) = state w.
Proof.
  revert w. induction k as [|k IH]; intros w E; [done|].
  simpl replicate. rewrite run_cons.
  assert (state (transition props Previous w) = state w) as Hs.
  { rewrite transition_Previous. simpl. destruct w as [[c d] o]. simpl in *.
    f_equal. lia. }
  rewrite IH; [done|]. by rewrite Hs.
Qed.

End StepIndex.

(** ** The step-list derivation *)

(** The derivation of the step list, for a list that starts at position
    [k] of the children. *)
Lemma sequence_imap_inv (k : nat) (steps : list ReactNode) (data : list StepInfo) :
  sequence (imap (fun i node =>
                    t ← props_title node;
                    Ok {| step := Z.of_nat (k + i) + 1; title := t |}) steps)
    = Ok data ->
  length data = length steps /\
  forall (i : nat) (s : StepInfo),
    data !! i = Some s ->
    step s = Z.of_nat (k + i) + 1 /\
    exists content, steps !! i = Some (RElement (title s) content).
Proof.
  revert k data. induction steps as [|node steps IH]; intros k data.
  - simpl. intros [= <-]. split; [done|]. intros i s Hi. by destruct i.
  - rewrite imap_cons. simpl sequence.
    destruct node as [| | | |t content|]; simpl; try discriminate.
    rewrite (imap_ext _ (fun i node =>
               t' ← props_title node;
               Ok {| step := Z.of_nat (S k + i) + 1; title := t' |}));
      last first.
    { intros i x _. simpl. by rewrite Nat.add_succ_r. }
    destruct (sequence _) as [rest|e] eqn:Hrest; simpl; [|discriminate].
    intros [= <-]. destruct (IH _ _ Hrest) as [Hlen Hall].
    split; [simpl; by rewrite Hlen|].
    intros [|i] s Hi; simpl in Hi.
    + injection Hi as <-. simpl. rewrite Nat.add_0_r. eauto.
    + destruct (Hall i s Hi) as [Hstep Helem].
      split; [rewrite Hstep; f_equal; lia|done].
Qed.

Lemma sequence_imap_total (k : nat) (steps : list ReactNode) :
  Forall (fun node => isElement node = true) steps ->
  exists data,
    sequence (imap (fun i node =>
                      t ← props_title node;
                      Ok {| step := Z.of_nat (k + i) + 1; title := t |}) steps)
      = Ok data.
Proof.
  intros Hall. revert k. induction Hall as [|node steps Hnode _ IH]; intros k.
  - by exists [].
  - rewrite imap_cons. simpl sequence.
    destruct node as [| | | |t content|]; try discriminate. simpl.
    rewrite (imap_ext _ (fun i node =>
               t' ← props_title node;
               Ok {| step := Z.of_nat (S k + i) + 1; title := t' |}));
      last first.
    { intros i x _. simpl. by rewrite Nat.add_succ_r. }
    destruct (IH (S k)) as [rest ->]. simpl. eauto.
Qed.

Lemma stepsData_inv (steps : list ReactNode) (data : list StepInfo) :
  stepsData steps = Ok data ->
  length data = length steps /\
  forall (i : nat) (s : StepInfo),
    data !! i = Some s ->
    step s = Z.of_nat i + 1 /\
    exists content, steps !! i = Some (RElement (title s) content).
Proof. apply (sequence_imap_inv 0). Qed.

Lemma stepsData_total (steps : list ReactNode) :
  Forall (fun node => isElement node = true) steps ->
  exists data, stepsData steps = Ok data.
Proof. apply (sequence_imap_total 0). Qed.

Lemma toArray_RArray (nodes : list ReactNode) :
  toArray (RArray nodes) = concat (map toArray nodes).
Proof.
  simpl. induction nodes as [|c l IH]; [done|]. simpl. by rewrite IH.
Qed.

Lemma toArray_stepElements (decls : list (string * ReactNode)) :
  toArray (RArray (map stepElement decls)) = map stepElement decls.
Proof.
  rewrite toArray_RArray.
  induction decls as [|d decls IH]; [done|]. simpl. by rewrite IH.
Qed.

Lemma Forall_isElement_stepElements (decls : list (string * ReactNode)) :
  Forall (fun node => isElement node = true) (map stepElement decls).
Proof. apply Forall_map. by apply Forall_true. Qed.

(** ** What a render holds *)

Section Render.

Context {Ext : Type} (props : MultiStepFormProps Ext).

Lemma MultiStepForm_inv (st : FormState) (view : WizardView Ext) :
  MultiStepForm props st = Ok view ->
  exists data,
    stepsData (toArray (children props)) = Ok data /\
    stepper view =
      EnhancedStepper data (currentStep st + 1) (spread (stepperProps props)) /\
    shown view = index (toArray (children props)) (currentStep st) /\
    navigation view =
      Navigation (currentStep st =? 0)
                 (currentStep st =? stepCount props - 1)
                 (onNext (FormProvider st) (toArray (children props)))
                 (onPrev (FormProvider st))
                 (handleSubmit (onSubmit props) (formData st))
                 (spread (navigationProps props)).
Proof.
  unfold MultiStepForm.
  destruct (stepsData _) as [data|e] eqn:Hdata; simpl; [|discriminate].
  intros [= <-]. by exists data.
Qed.

Lemma MultiStepForm_total (st : FormState) :
  Forall (fun node => isElement node = true) (toArray (children props)) ->
  exists view, MultiStepForm props st = Ok view.
Proof.
  intros Hall. destruct (stepsData_total _ Hall) as [data Hdata].
  unfold MultiStepForm. rewrite Hdata. simpl. eauto.
Qed.

(** A click either leaves the world as it is (no such control, or a
    disabled one) or runs the transition of that control. *)
Lemma activate_inv (a : Action) (w w' : World Ext) :
  activate props a w = Ok w' ->
  w' = w \/ w' = transition props a w.
Proof.
  unfold activate.
  destruct (MultiStepForm props (state w)) as [view|e] eqn:Hview; simpl;
    [|discriminate].
  destruct (MultiStepForm_inv _ _ Hview) as (data & _ & _ & _ & Hnav).
  intros [= <-]. rewrite Hnav. clear Hnav Hview.
  destruct a; simpl.
  - destruct (_ =? _ - 1); simpl; auto.
  - destruct (_ =? 0); simpl; auto.
  - destruct (_ =? _ - 1); simpl; auto.
Qed.

End Render.

Lemma session_in_range {Ext} (props : MultiStepFormProps Ext)
    (acts : list Action) (w w' : World Ext) :
  1 <= stepCount props ->
  0 <= currentStep (state w) <= stepCount props - 1 ->
  session props acts w = Ok w' ->
  0 <= currentStep (state w') <= stepCount props - 1.
Proof.
  intros Hn. revert w.
  induction acts as [|a acts IH]; intros w Hw; simpl.
  - by intros [= <-].
  - destruct (activate props a w) as [w1|e] eqn:Hact; simpl; [|discriminate].
    apply IH. destruct (activate_inv _ _ _ _ Hact) as [-> | ->]; [done|].
    by apply transition_in_range.
Qed.

(** ** The stepper *)

Lemma items_lookup (data : list StepInfo) (cur : Z) (sp : StyleProps)
    (i : nat) (v : StepItemView) :
  items (EnhancedStepper data cur sp) !! i = Some v ->
  exists s,
    data !! i = Some s /\
    key v = step s /\
    caption v = title s /\
    showsCompleted v = (cur >? step s) /\
    showsActive v = (cur =? step s) /\
    showsPending v = negb (cur >=? step s) /\
    connector v =
      (if Z.of_nat i <? Z.of_nat (length data) - 1
       then Some (if cur >? step s then "#788191" else "#EAECF0")
       else None).
Proof.
  simpl. rewrite list_lookup_imap.
  destruct (data !! i) as [s|]; simpl; [|discriminate].
  intros [= <-]. exists s.
  unfold showsCompleted, showsActive, showsPending. simpl.
  repeat split; try done.
  - by destruct (cur >? step s).
  - by destruct (cur =? step s).
  - by destruct (cur >=? step s).
Qed.

Lemma items_keys_captions (data : list StepInfo) (cur : Z) (sp : StyleProps) :
  map (fun v => {| step := key v; title := caption v |})
      (items (EnhancedStepper data cur sp)) = data.
Proof.
  apply list_eq. intros i. simpl.
  rewrite list_lookup_fmap, list_lookup_imap.
  by destruct (data !! i) as [[n t]|].
Qed.

(** ** Errors of the derivation and of the render *)



(** * The step-progression contract *)

(** ** The step index *)

(** C1. With at least one declared step, starting from [currentStep = 0],
    the step index lies in [0, stepCount - 1] after every transition of
    every finite sequence of Next and Previous transitions (and of Submit
    activations, should any occur among them): the bound holds after each
    prefix [take k acts] of the sequence, both when the handlers are run
    one after the other and when the sequence is clicked at the screen. *)
Theorem currentStep_in_bounds {Ext} (props : MultiStepFormProps Ext)
    (w : World Ext) (acts : list Action) (k : nat) :
  1 <= stepCount props ->
  currentStep (state w) = 0 ->
  0 <= currentStep (state (run props (take k acts) w)) <= stepCount props - 1 /\
  (forall w', session props (take k acts) w = Ok w' ->
              0 <= currentStep (state w') <= stepCount props - 1).
Proof.
  intros Hn H0. split.
  - apply run_in_range; [done|]. lia.
  - intros w'. apply session_in_range; [done|]. lia.
Qed.

Lemma currentStep_in_bounds_witness :
  0 <= currentStep (state (run abcWizard (take 4 [Next; Next; Next; Previous; Next])
                             freshWorld))
    <= stepCount abcWizard - 1 /\
  exists w', session abcWizard (take 4 [Next; Next; Next; Previous; Next])
               freshWorld = Ok w' /\
             0 <= currentStep (state w') <= stepCount abcWizard - 1.
Proof.
  assert (1 <= stepCount abcWizard) as Hn by (vm_compute; discriminate).
  destruct (currentStep_in_bounds abcWizard freshWorld
              [Next; Next; Next; Previous; Next] 4 Hn eq_refl) as [Hrun Hses].
  split; [exact Hrun|].
  eexists. split; [reflexivity|]. apply Hses. reflexivity.
Defined.

(** C2. Whatever the number of steps and the current state, its step index
    a safe integer, Next sets the step index to
    [min (currentStep + 1) (stepCount - 1)] and leaves the bag alone; on
    the last step, any number of Next transitions leaves the step index
    where it is. *)
Theorem Next_is_clamped_increment {Ext} (props : MultiStepFormProps Ext)
    (w : World Ext) :
  isSafeInteger (currentStep (state w)) ->
  currentStep (state (transition props Next w)) =
    Z.min (currentStep (state w) + 1) (stepCount props - 1) /\
  formData (state (transition props Next w)) = formData (state w) /\
  (currentStep (state w) = stepCount props - 1 ->
   forall k : nat,
     currentStep (state (run props (replicate k Next) w)) =
     currentStep (state w)).
Proof.
  intros _. split; [done|]. split; [done|].
  intros E k. by rewrite run_replicate_Next.
Qed.

Lemma Next_is_clamped_increment_witness :
  currentStep (state (transition abcWizard Next (worldAt 2 bagX1))) =
    Z.min (2 + 1) (stepCount abcWizard - 1) /\
  currentStep (state (run abcWizard (replicate 5 Next) (worldAt 2 bagX1))) = 2.
Proof.
  assert (isSafeInteger (currentStep (state (worldAt 2 bagX1)))) as Hsafe
    by (split; vm_compute; discriminate).
  destruct (Next_is_clamped_increment abcWizard (worldAt 2 bagX1) Hsafe)
    as (Hmin & _ & Hfix).
  split; [exact Hmin|]. apply (Hfix eq_refl 5%nat).
Defined.

(** C3. Whatever the current state, its step index a safe integer,
    Previous sets the step index to [max (currentStep - 1) 0] and leaves
    the bag alone; on the first step, any number of Previous transitions
    leaves the step index at 0. *)
Theorem Previous_is_clamped_decrement {Ext} (props : MultiStepFormProps Ext)
    (w : World Ext) :
  isSafeInteger (currentStep (state w)) ->
  currentStep (state (transition props Previous w)) =
    Z.max (currentStep (state w) - 1) 0 /\
  formData (state (transition props Previous w)) = formData (state w) /\
  (currentStep (state w) = 0 ->
   forall k : nat,
     currentStep (state (run props (replicate k Previous) w)) =
     currentStep (state w)).
Proof.
  intros _. split; [done|]. split; [done|].
  intros E k. by rewrite run_replicate_Previous.
Qed.

Lemma Previous_is_clamped_decrement_witness :
  currentStep (state (transition abcWizard Previous (worldAt 0 bagX1))) =
    Z.max (0 - 1) 0 /\
  currentStep (state (run abcWizard (replicate 5 Previous) (worldAt 0 bagX1))) = 0.
Proof.
  assert (isSafeInteger (currentStep (state (worldAt 0 bagX1)))) as Hsafe
    by (split; vm_compute; discriminate).
  destruct (Previous_is_clamped_decrement abcWizard (worldAt 0 bagX1) Hsafe)
    as (Hmax & _ & Hfix).
  split; [exact Hmax|]. apply (Hfix eq_refl 5%nat).
Defined.

(** ** Submit *)

(** C4. On the last step the Submit control is on screen, and one
    activation of it calls the caller's completion callback once, on the
    form data bag as it is at that moment, and does nothing else. With a
    callback that records its calls, the record grows by exactly that one
    bag. *)
Theorem Submit_calls_onSubmit_once :
  (forall (Ext : Type) (props : MultiStepFormProps Ext) (w : World Ext)
          (view : WizardView Ext),
      MultiStepForm props (state w) = Ok view ->
      currentStep (state w) = stepCount props - 1 ->
      exists h : Handler Ext,
        click Submit (navigation view) = Some h /\
        activate props Submit w = Ok (h w) /\
        h w = {| state := state w;
                 outside := onSubmit props (formData (state w)) (outside w) |}) /\
  (forall (props : MultiStepFormProps (list FormData))
          (w : World (list FormData)) (view : WizardView (list FormData)),
      onSubmit props = recordCall ->
      MultiStepForm props (state w) = Ok view ->
      currentStep (state w) = stepCount props - 1 ->
      exists w',
        activate props Submit w = Ok w' /\
        outside w' = (outside w ++ [formData (state w)])%list).
Proof.
  assert (forall (Ext : Type) (props : MultiStepFormProps Ext) (w : World Ext)
                 (view : WizardView Ext),
      MultiStepForm props (state w) = Ok view ->
      currentStep (state w) = stepCount props - 1 ->
      exists h : Handler Ext,
        click Submit (navigation view) = Some h /\
        activate props Submit w = Ok (h w) /\
        h w = {| state := state w;
                 outside := onSubmit props (formData (state w)) (outside w) |})
    as Hgen.
  { intros Ext props w view Hview Hlast.
    destruct (MultiStepForm_inv _ _ _ Hview) as (data & _ & _ & _ & Hnav).
    exists (handleSubmit (onSubmit props) (formData (state w))).
    assert (click Submit (navigation view) =
            Some (handleSubmit (onSubmit props) (formData (state w)))) as Hclick.
    { rewrite Hnav. apply Z.eqb_eq in Hlast. by rewrite Hlast. }
    split; [done|]. split; [|done].
    unfold activate. rewrite Hview. unfold mbind, result_bind.
    cbv beta iota. by rewrite Hclick. }
  split; [exact Hgen|].
  intros props w view Hrec Hview Hlast.
  destruct (Hgen _ props w view Hview Hlast) as (h & _ & Hact & Hh).
  exists (h w). split; [done|]. rewrite Hh. simpl. by rewrite Hrec.
Qed.

Lemma Submit_calls_onSubmit_once_witness :
  exists w',
    activate abcWizard Submit (worldAt 2 bagX1) = Ok w' /\
    outside w' = [bagX1].
Proof.
  destruct Submit_calls_onSubmit_once as [_ Hrec].
  refine (Hrec abcWizard (worldAt 2 bagX1) _ eq_refl _ _).
  - reflexivity.
  - reflexivity.
Defined.

(** ** The context accessor *)




(** ** Submit and navigation *)

(** C6. A Submit activation leaves the cells of the provider, and so the
    step index, as they were: the handler does, and so does a click on the
    control. Navigation goes on as before: the wizard renders the same
    controls after the activation as before it, and every later sequence
    of transitions leads to the cells it would have led to without the
    Submit. *)
Theorem Submit_keeps_currentStep {Ext} (props : MultiStepFormProps Ext)
    (w : World Ext) :
  currentStep (state (transition props Submit w)) = currentStep (state w) /\
  state (transition props Submit w) = state w /\
  (forall w', activate props Submit w = Ok w' ->
              state w' = state w /\
              MultiStepForm props (state w') = MultiStepForm props (state w)) /\
  (forall acts : list Action,
      state (run props (Submit :: acts) w) = state (run props acts w)).
Proof.
  split; [done|]. split; [done|]. split.
  - intros w' Hact.
    assert (state w' = state w) as ->; [|done].
    by destruct (activate_inv _ _ _ _ Hact) as [-> | ->].
  - intros acts. rewrite run_cons. by apply run_state_ext.
Qed.

Lemma Submit_keeps_currentStep_witness :
  currentStep (state (transition abcWizard Submit (worldAt 2 bagX1))) = 2 /\
  (exists w', activate abcWizard Submit (worldAt 2 bagX1) = Ok w' /\
              currentStep (state w') = 2) /\
  currentStep (state (run abcWizard [Submit; Previous; Next] (worldAt 2 bagX1))) = 2.
Proof.
  destruct (Submit_keeps_currentStep abcWizard (worldAt 2 bagX1))
    as (Hstep & _ & Hclick & Hrun).
  split; [exact Hstep|]. split.
  - eexists. split; [reflexivity|].
    refine (f_equal currentStep (proj1 (Hclick _ eq_refl))).
  - rewrite (Hrun [Previous; Next]). reflexivity.
Defined.

(** ** The stepper indicator *)

(** C7. For [n >= 1] declared steps and a step index in [0, n - 1], the
    stepper shows [n] steps, the one at position [i] with ordinal [i + 1],
    and each in exactly one of the three states: completed if and only if
    its ordinal is below [currentStep + 1], active if and only if its
    ordinal is [currentStep + 1], pending otherwise. Exactly one step is
    active, the one at position [currentStep]. Every step but the last has
    a connector after it, in the colour of completion if and only if that
    step is completed. *)
Theorem Stepper_classification {Ext} (props : MultiStepFormProps Ext)
    (st : FormState) (view : WizardView Ext) :
  MultiStepForm props st = Ok view ->
  1 <= stepCount props ->
  0 <= currentStep st <= stepCount props - 1 ->
  let steps := items (stepper view) in
  Z.of_nat (length steps) = stepCount props /\
  (forall (i : nat) (v : StepItemView),
      steps !! i = Some v ->
      key v = Z.of_nat i + 1 /\
      shownStates v =
        [if key v <? currentStep st + 1 then Completed
         else if key v =? currentStep st + 1 then Active
         else Pending] /\
      (showsCompleted v = true <-> key v < currentStep st + 1) /\
      (showsActive v = true <-> key v = currentStep st + 1) /\
      (showsPending v = true <-> currentStep st + 1 < key v) /\
      connector v =
        (if Z.of_nat i <? stepCount props - 1
         then Some (if showsCompleted v then "#788191" else "#EAECF0")
         else None)) /\
  (exists v, steps !! Z.to_nat (currentStep st) = Some v /\
             showsActive v = true) /\
  (forall (i : nat) (v : StepItemView),
      steps !! i = Some v -> showsActive v = true ->
      i = Z.to_nat (currentStep st)).
Proof.
  intros Hview Hn Hrange steps. subst steps.
  destruct (MultiStepForm_inv _ _ _ Hview) as (data & Hdata & -> & _ & _).
  destruct (stepsData_inv _ _ Hdata) as [Hlen Hall].
  assert (Z.of_nat (length data) = stepCount props) as HlenZ.
  { unfold stepCount. by rewrite Hlen. }
  assert (forall (i : nat) (v : StepItemView),
      items (EnhancedStepper data (currentStep st + 1)
               (spread (stepperProps props))) !! i = Some v ->
      key v = Z.of_nat i + 1 /\
      showsCompleted v = (currentStep st + 1 >? Z.of_nat i + 1) /\
      showsActive v = (currentStep st + 1 =? Z.of_nat i + 1) /\
      showsPending v = negb (currentStep st + 1 >=? Z.of_nat i + 1) /\
      connector v =
        (if Z.of_nat i <? stepCount props - 1
         then Some (if showsCompleted v then "#788191" else "#EAECF0")
         else None)) as Hitem.
  { intros i v Hv.
    destruct (items_lookup _ _ _ _ _ Hv)
      as (s & Hs & Hkey & _ & Hc & Ha & Hp & Hconn).
    destruct (Hall i s Hs) as [Hstep _].
    rewrite Hstep in *. rewrite HlenZ in Hconn.
    repeat split; try done. by rewrite Hc. }
  split; [by rewrite <- HlenZ; simpl; rewrite length_imap|].
  split; [|split].
  - intros i v Hv.
    destruct (Hitem i v Hv) as (Hkey & Hc & Ha & Hp & Hconn).
    split; [done|].
    split; [|split; [|split; [|split; [|exact Hconn]]]].
    + unfold shownStates. rewrite Hc, Ha, Hp, Hkey, Z.gtb_ltb, Z.geb_leb.
      destruct (Z.ltb_spec (Z.of_nat i + 1) (currentStep st + 1)),
               (Z.eqb_spec (currentStep st + 1) (Z.of_nat i + 1)),
               (Z.eqb_spec (Z.of_nat i + 1) (currentStep st + 1)),
               (Z.leb_spec (Z.of_nat i + 1) (currentStep st + 1));
        simpl; try done; lia.
    + rewrite Hc, Hkey, Z.gtb_ltb. apply Z.ltb_lt.
    + rewrite Ha, Hkey, Z.eqb_eq. split; intros; lia.
    + rewrite Hp, Hkey, Z.geb_leb, negb_true_iff. apply Z.leb_gt.
  - assert (length (items (EnhancedStepper data (currentStep st + 1)
                             (spread (stepperProps props)))) = length data)
      as Hitems by (simpl; apply length_imap).
    destruct (lookup_lt_is_Some_2
                (items (EnhancedStepper data (currentStep st + 1)
                          (spread (stepperProps props))))
                (Z.to_nat (currentStep st))) as [v Hv]; [lia|].
    exists v. split; [exact Hv|].
    destruct (Hitem _ v Hv) as (_ & _ & -> & _).
    apply Z.eqb_eq. lia.
  - intros i v Hv Hact.
    destruct (Hitem i v Hv) as (_ & _ & Ha & _).
    rewrite Ha in Hact. apply Z.eqb_eq in Hact. lia.
Qed.

Lemma Stepper_classification_witness :
  exists view,
    MultiStepForm abcWizard {| currentStep := 1; formData := bagX1 |} = Ok view /\
    Z.of_nat (length (items (stepper view))) = 3 /\
    (exists v, items (stepper view) !! 1%nat = Some v /\ showsActive v = true).
Proof.
  eexists. split; [reflexivity|].
  destruct (Stepper_classification abcWizard
              {| currentStep := 1; formData := bagX1 |} _ eq_refl)
    as (Hlen & _ & Hact & _).
  - unfold stepCount. simpl. lia.
  - unfold stepCount. simpl. lia.
  - split; [exact Hlen | exact Hact].
Defined.

(** ** Navigation controls *)

(** C8. The two buttons [Navigation] renders depend on [isFirstStep],
    [isLastStep] and the three callbacks only (not on the style passed
    through). In the wizard, the Previous button is disabled exactly when
    [currentStep = 0]; the other button is Submit, bound to the submit
    handler, exactly when [currentStep = stepCount - 1], and Next, bound
    to the Next handler, otherwise. *)
Theorem Navigation_controls :
  (forall (H : Type) (isFirstStep isLastStep : bool) (onNext onPrev onSubmit : H)
          (sp sp' : StyleProps),
      previousButton (Navigation isFirstStep isLastStep onNext onPrev onSubmit sp) =
      previousButton (Navigation isFirstStep isLastStep onNext onPrev onSubmit sp') /\
      mainButton (Navigation isFirstStep isLastStep onNext onPrev onSubmit sp) =
      mainButton (Navigation isFirstStep isLastStep onNext onPrev onSubmit sp')) /\
  (forall (Ext : Type) (props : MultiStepFormProps Ext) (st : FormState)
          (view : WizardView Ext),
      MultiStepForm props st = Ok view ->
      let nav := navigation view in
      text (previousButton nav) = "Previous" /\
      onClick (previousButton nav) = onPrev (FormProvider st) /\
      (disabled (previousButton nav) = true <-> currentStep st = 0) /\
      (text (mainButton nav) = "Submit" <-> currentStep st = stepCount props - 1) /\
      (text (mainButton nav) = "Next" <-> currentStep st <> stepCount props - 1) /\
      disabled (mainButton nav) = false /\
      onClick (mainButton nav) =
        (if currentStep st =? stepCount props - 1
         then handleSubmit (onSubmit props) (formData st)
         else onNext (FormProvider st) (toArray (children props)))).
Proof.
  split; [done|].
  intros Ext props st view Hview nav. subst nav.
  destruct (MultiStepForm_inv _ _ _ Hview) as (data & _ & _ & _ & ->).
  simpl. split; [done|]. split; [done|].
  split; [apply Z.eqb_eq|].
  destruct (Z.eqb_spec (currentStep st) (stepCount props - 1)) as [E|NE];
    simpl; repeat split; try done.
Qed.

Lemma Navigation_controls_witness :
  exists view,
    MultiStepForm abcWizard initialState = Ok view /\
    disabled (previousButton (navigation view)) = true /\
    text (mainButton (navigation view)) = "Next".
Proof.
  destruct Navigation_controls as [_ Hnav].
  eexists. split; [reflexivity|].
  destruct (Hnav _ abcWizard initialState _ eq_refl)
    as (_ & _ & Hprev & _ & Hnext & _).
  split.
  - apply Hprev. reflexivity.
  - apply Hnext. vm_compute. discriminate.
Defined.

(** ** The step list *)

(** C9. For children that are [n] declared step elements, in order, the
    derivation returns [n] pairs, the one at position [i] (from 0) made of
    the ordinal [i + 1] and of the title of the element at position [i].
    It is a function of the children alone: whatever the step index and
    the bag, the wizard renders, and its stepper shows, that same list. *)
Theorem stepsData_parallel {Ext} (props : MultiStepFormProps Ext)
    (decls : list (string * ReactNode)) :
  toArray (children props) = map stepElement decls ->
  exists data,
    stepsData (toArray (children props)) = Ok data /\
    length data = length decls /\
    (forall (i : nat) (d : string * ReactNode),
        decls !! i = Some d ->
        data !! i = Some {| step := Z.of_nat i + 1; title := d.1 |}) /\
    (forall st : FormState,
        exists view,
          MultiStepForm props st = Ok view /\
          map (fun v => {| step := key v; title := caption v |})
              (items (stepper view)) = data).
Proof.
  intros Hdecls.
  destruct (stepsData_total (toArray (children props))) as [data Hdata].
  { rewrite Hdecls. apply Forall_isElement_stepElements. }
  exists data. split; [done|].
  destruct (stepsData_inv _ _ Hdata) as [Hlen Hall].
  rewrite Hdecls, length_map in Hlen.
  split; [done|]. split.
  - intros i d Hd.
    destruct (lookup_lt_is_Some_2 data i) as [[n t] Hs].
    { rewrite Hlen. by eapply lookup_lt_Some. }
    destruct (Hall i _ Hs) as [Hstep [content Helem]]. simpl in *.
    rewrite Hdecls, list_lookup_fmap, Hd in Helem. simpl in Helem.
    injection Helem as <- _. by rewrite Hs, Hstep.
  - intros st. unfold MultiStepForm. rewrite Hdata. simpl.
    eexists. split; [done|].
    exact (items_keys_captions data (currentStep st + 1)
             (spread (stepperProps props))).
Qed.

Lemma stepsData_parallel_witness :
  exists data,
    stepsData (toArray (children abcWizard)) = Ok data /\
    data !! 2%nat = Some {| step := 3; title := "C" |}.
Proof.
  destruct (stepsData_parallel abcWizard abcSteps eq_refl)
    as (data & Hdata & _ & Hall & _).
  exists data. split; [exact Hdata|].
  apply (Hall 2%nat ("C", RText "third")). reflexivity.
Defined.

(** ** No declared step *)

(** C10. From [currentStep = 0]: if the wizard has no declared step, the
    Next control is on screen and a Next activation sets the step index to
    [min (0 + 1) (0 - 1) = -1], which is outside [0 <= currentStep <
    stepCount]; and if the bounds hold after every sequence of
    transitions, then there is at least one declared step. *)
Theorem Next_without_steps {Ext} (props : MultiStepFormProps Ext)
    (w : World Ext) :
  currentStep (state w) = 0 ->
  (stepCount props = 0 ->
   currentStep (state (transition props Next w)) = Z.min (0 + 1) (0 - 1) /\
   currentStep (state (transition props Next w)) = -1 /\
   activate props Next w = Ok (transition props Next w) /\
   ~ (0 <= currentStep (state (transition props Next w)) < stepCount props)) /\
  ((forall acts : list Action,
       0 <= currentStep (state (run props acts w)) < stepCount props) ->
   1 <= stepCount props).
Proof.
  intros H0. split.
  - intros Hn.
    assert (currentStep (state (transition props Next w)) = -1) as Hm.
    { rewrite transition_Next. simpl. rewrite H0, Hn. reflexivity. }
    split; [by rewrite Hm|]. split; [done|]. split; [|rewrite Hm; lia].
    assert (toArray (children props) = []) as Hnil.
    { unfold stepCount in Hn. apply length_zero_iff_nil. lia. }
    destruct (MultiStepForm_total props (state w)) as [view Hview].
    { rewrite Hnil. constructor. }
    destruct (MultiStepForm_inv _ _ _ Hview) as (data & _ & _ & _ & Hnav).
    unfold activate. rewrite Hview. unfold mbind, result_bind.
    cbv beta iota. rewrite Hnav, H0, Hn. reflexivity.
  - intros Hall. specialize (Hall []). rewrite run_nil in Hall. lia.
Qed.

Lemma Next_without_steps_witness :
  currentStep (state (transition emptyWizard Next freshWorld)) = -1 /\
  activate emptyWizard Next freshWorld = Ok (transition emptyWizard Next freshWorld).
Proof.
  destruct (Next_without_steps emptyWizard freshWorld eq_refl) as [Hzero _].
  destruct (Hzero eq_refl) as (_ & Hm & Hact & _).
  split; [exact Hm | exact Hact].
Defined.

(** ** The scenario of three steps *)

(** Three steps A, B, C: the first render shows A active, Previous
    disabled and Next; two Next clicks lead to C, where Submit replaces
    Next; Submit with the bag [{x: 1}] calls the callback once, on that
    bag. *)
Example abc_scenario :
  (exists view,
      MultiStepForm abcWizard initialState = Ok view /\
      map shownStates (items (stepper view)) = [[Active]; [Pending]; [Pending]] /\
      shown view = Some (RElement "A" (RText "first")) /\
      disabled (previousButton (navigation view)) = true /\
      text (mainButton (navigation view)) = "Next") /\
  (exists w view,
      session abcWizard [Next; Next] (worldAt 0 bagX1) = Ok w /\
      MultiStepForm abcWizard (state w) = Ok view /\
      shown view = Some (RElement "C" (RText "third")) /\
      text (mainButton (navigation view)) = "Submit" /\
      exists w',
        session abcWizard [Submit] w = Ok w' /\
        outside w' = [bagX1] /\
        currentStep (state w') = 2).
Proof.
  split.
  - eexists. split; [reflexivity|]. by repeat split.
  - do 2 eexists. split; [reflexivity|]. split; [reflexivity|].
    split; [done|]. split; [done|].
    eexists. split; [reflexivity|]. by split.
Qed.

(** * Further properties of the wizard *)

(** ** Clicks and transitions *)

(** What a click on a render reaches. *)
Lemma click_render {Ext} (props : MultiStepFormProps Ext) (st : FormState)
    (view : WizardView Ext) (a : Action) :
  MultiStepForm props st = Ok view ->
  click a (navigation view) =
  if enabled props a st then Some (handlerOf props a st) else None.
Proof.
  intros Hview.
  destruct (MultiStepForm_inv _ _ _ Hview) as (data & _ & _ & _ & ->).
  destruct a; simpl.
  - by destruct (_ =? _ - 1).
  - by destruct (_ =? 0).
  - by destruct (_ =? _ - 1).
Qed.

Lemma activate_enabled {Ext} (props : MultiStepFormProps Ext) (a : Action)
    (w : World Ext) (view : WizardView Ext) :
  MultiStepForm props (state w) = Ok view ->
  activate props a w =
  Ok (if enabled props a (state w) then transition props a w else w).
Proof.
  intros Hview. unfold activate. rewrite Hview.
  unfold mbind, result_bind. cbv beta iota.
  rewrite (click_render _ _ _ a Hview). by destruct (enabled _ _ _).
Qed.

(** A Next on the last step, a Previous on the first: the clamp leaves the
    world as it is. *)
Lemma transition_Next_last {Ext} (props : MultiStepFormProps Ext) (w : World Ext) :
  currentStep (state w) = stepCount props - 1 ->
  transition props Next w = w.
Proof.
  intros E. destruct w as [[c d] o]. simpl in E.
  rewrite transition_Next. simpl. do 2 f_equal. lia.
Qed.

Lemma transition_Previous_first {Ext} (props : MultiStepFormProps Ext)
    (w : World Ext) :
  currentStep (state w) = 0 ->
  transition props Previous w = w.
Proof.
  intros E. destruct w as [[c d] o]. simpl in E.
  rewrite transition_Previous. simpl. do 2 f_equal. lia.
Qed.

(** ** The step index, whatever the number of steps *)

Lemma transition_wide_range {Ext} (props : MultiStepFormProps Ext) (a : Action)
    (w : World Ext) :
  Z.min 0 (stepCount props - 1) <= currentStep (state w)
    <= Z.max 0 (stepCount props - 1) ->
  Z.min 0 (stepCount props - 1) <= currentStep (state (transition props a w))
    <= Z.max 0 (stepCount props - 1).
Proof.
  intros Hw. destruct a.
  - rewrite transition_Next. simpl. lia.
  - rewrite transition_Previous. simpl. lia.
  - rewrite transition_Submit. simpl. lia.
Qed.

(** X1. Whatever the number of declared steps, none included: from
    [currentStep = 0] the step index stays between [min 0 (stepCount - 1)]
    and [max 0 (stepCount - 1)], under the handlers and under the clicks.
    So it is never below -1, and it is negative only in a wizard without
    steps. *)
Theorem currentStep_bounds_any_count {Ext} (props : MultiStepFormProps Ext)
    (w : World Ext) (acts : list Action) :
  currentStep (state w) = 0 ->
  (Z.min 0 (stepCount props - 1) <= currentStep (state (run props acts w))
     <= Z.max 0 (stepCount props - 1)) /\
  (forall w', session props acts w = Ok w' ->
              Z.min 0 (stepCount props - 1) <= currentStep (state w')
                <= Z.max 0 (stepCount props - 1)) /\
  -1 <= currentStep (state (run props acts w)) /\
  (currentStep (state (run props acts w)) < 0 -> stepCount props = 0).
Proof.
  intros H0.
  assert (forall acts (w : World Ext),
    Z.min 0 (stepCount props - 1) <= currentStep (state w)
      <= Z.max 0 (stepCount props - 1) ->
    Z.min 0 (stepCount props - 1) <= currentStep (state (run props acts w))
      <= Z.max 0 (stepCount props - 1)) as Hrun.
  { clear. intros acts. induction acts as [|a acts IH]; intros w Hw; [done|].
    rewrite run_cons. apply IH. by apply transition_wide_range. }
  assert (forall acts (w w' : World Ext),
    Z.min 0 (stepCount props - 1) <= currentStep (state w)
      <= Z.max 0 (stepCount props - 1) ->
    session props acts w = Ok w' ->
    Z.min 0 (stepCount props - 1) <= currentStep (state w')
      <= Z.max 0 (stepCount props - 1)) as Hses.
  { clear. intros acts. induction acts as [|a acts IH]; intros w w' Hw; simpl.
    - by intros [= <-].
    - destruct (activate props a w) as [w1|e] eqn:Hact; simpl; [|discriminate].
      apply IH. destruct (activate_inv _ _ _ _ Hact) as [-> | ->]; [done|].
      by apply transition_wide_range. }
  assert (0 <= stepCount props) as Hn by (unfold stepCount; lia).
  specialize (Hrun acts w). split; [apply Hrun; lia|].
  split; [intros w'; apply Hses; lia|]. lia.
Qed.

Lemma currentStep_bounds_any_count_witness :
  -1 <= currentStep (state (run emptyWizard [Next; Next; Previous; Next] freshWorld))
     <= 0.
Proof.
  destruct (currentStep_bounds_any_count emptyWizard freshWorld
              [Next; Next; Previous; Next] eq_refl) as (Hrun & _).
  exact Hrun.
Defined.

(** X2. With a safe integer for step index and a last step within the
    safe integers (so that every index on the way is one): [k] Next
    transitions from a step index that is not beyond the last step add
    [k], up to the last step; [k] Previous transitions from a step index
    that is not negative subtract [k], down to 0. So every step [i] of
    [0 .. stepCount - 1] is reached from 0 by [i] Next transitions, and 0
    from any step [i] by [i] Previous transitions. *)
Theorem repeated_Next_Previous {Ext} (props : MultiStepFormProps Ext)
    (w : World Ext) (k : nat) :
  isSafeInteger (currentStep (state w)) ->
  stepCount props - 1 <= MAX_SAFE_INTEGER ->
  (currentStep (state w) <= stepCount props - 1 ->
   currentStep (state (run props (replicate k Next) w)) =
   Z.min (currentStep (state w) + Z.of_nat k) (stepCount props - 1)) /\
  (0 <= currentStep (state w) ->
   currentStep (state (run props (replicate k Previous) w)) =
   Z.max (currentStep (state w) - Z.of_nat k) 0) /\
  (currentStep (state w) = 0 -> Z.of_nat k <= stepCount props - 1 ->
   currentStep (state (run props (replicate k Next) w)) = Z.of_nat k) /\
  (currentStep (state w) = Z.of_nat k ->
   currentStep (state (run props (replicate k Previous) w)) = 0).
Proof.
  assert (forall (k : nat) (w : World Ext),
    currentStep (state w) <= stepCount props - 1 ->
    currentStep (state (run props (replicate k Next) w)) =
    Z.min (currentStep (state w) + Z.of_nat k) (stepCount props - 1)) as HN.
  { clear. intros k. induction k as [|k IH]; intros w Hw.
    - simpl. lia.
    - simpl replicate. rewrite run_cons, IH; rewrite transition_Next; simpl; lia. }
  assert (forall (k : nat) (w : World Ext),
    0 <= currentStep (state w) ->
    currentStep (state (run props (replicate k Previous) w)) =
    Z.max (currentStep (state w) - Z.of_nat k) 0) as HP.
  { clear. intros k. induction k as [|k IH]; intros w Hw.
    - simpl. lia.
    - simpl replicate.
      rewrite run_cons, IH; rewrite transition_Previous; simpl; lia. }
  intros _ _. split; [apply HN|]. split; [apply HP|]. split.
  - intros H0 Hk. rewrite HN; lia.
  - intros Hk. rewrite HP; lia.
Qed.

Lemma repeated_Next_Previous_witness :
  currentStep (state (run abcWizard (replicate 2 Next) freshWorld)) = 2 /\
  currentStep (state (run abcWizard (replicate 2 Previous) (worldAt 2 bagX1))) = 0.
Proof.
  assert (stepCount abcWizard - 1 <= MAX_SAFE_INTEGER) as Hcount
    by (vm_compute; discriminate).
  assert (isSafeInteger (currentStep (state freshWorld))) as Hsafe0
    by (split; vm_compute; discriminate).
  assert (isSafeInteger (currentStep (state (worldAt 2 bagX1)))) as Hsafe2
    by (split; vm_compute; discriminate).
  destruct (repeated_Next_Previous abcWizard freshWorld 2 Hsafe0 Hcount)
    as (_ & _ & Hup & _).
  destruct (repeated_Next_Previous abcWizard (worldAt 2 bagX1) 2 Hsafe2 Hcount)
    as (_ & _ & _ & Hdown).
  split.
  - apply Hup; [reflexivity|]. vm_compute. discriminate.
  - apply Hdown. reflexivity.
Defined.

(** X3. Away from the bounds Next and Previous undo each other: before the
    last step a Next followed by a Previous gives the world back, and
    after the first step so does a Previous followed by a Next. On the
    last of at least two steps a Next followed by a Previous does not: it
    ends one step earlier. *)
Theorem Next_Previous_round_trip {Ext} (props : MultiStepFormProps Ext)
    (w : World Ext) :
  (0 <= currentStep (state w) < stepCount props - 1 ->
   run props [Next; Previous] w = w) /\
  (0 < currentStep (state w) <= stepCount props - 1 ->
   run props [Previous; Next] w = w) /\
  (currentStep (state w) = stepCount props - 1 -> 2 <= stepCount props ->
   currentStep (state (run props [Next; Previous] w)) = stepCount props - 2).
Proof.
  destruct w as [[c d] o]. split; [|split].
  - intros Hc. simpl in Hc. rewrite !run_cons, run_nil.
    rewrite transition_Previous, transition_Next. simpl. do 2 f_equal. lia.
  - intros Hc. simpl in Hc. rewrite !run_cons, run_nil.
    rewrite transition_Next, transition_Previous. simpl. do 2 f_equal. lia.
  - intros Hc Hn. simpl in Hc. rewrite !run_cons, run_nil.
    rewrite transition_Previous, transition_Next. simpl. lia.
Qed.

Lemma Next_Previous_round_trip_witness :
  run abcWizard [Next; Previous] (worldAt 1 bagX1) = worldAt 1 bagX1 /\
  run abcWizard [Previous; Next] (worldAt 1 bagX1) = worldAt 1 bagX1 /\
  currentStep (state (run abcWizard [Next; Previous] (worldAt 2 bagX1))) = 1.
Proof.
  destruct (Next_Previous_round_trip abcWizard (worldAt 1 bagX1))
    as (Hnp & Hpn & _).
  destruct (Next_Previous_round_trip abcWizard (worldAt 2 bagX1))
    as (_ & _ & Hlast).
  split; [|split].
  - apply Hnp. split; [discriminate|reflexivity].
  - apply Hpn. split; [reflexivity|discriminate].
  - apply Hlast; [reflexivity|]. vm_compute. discriminate.
Defined.

(** ** Clicks against handlers *)

(** X4. In a wizard whose children are all elements, with the step index in
    range, a sequence of Next and Previous clicks on the screen ends in
    the world the handlers lead to: a Previous that is disabled and a Next
    that is replaced by Submit are exactly the transitions the clamps turn
    into no-ops. *)
Theorem clicks_agree_with_handlers {Ext} (props : MultiStepFormProps Ext)
    (acts : list Action) (w : World Ext) :
  Forall (fun node => isElement node = true) (toArray (children props)) ->
  0 <= currentStep (state w) <= stepCount props - 1 ->
  Forall (fun a => isSubmit a = false) acts ->
  session props acts w = Ok (run props acts w).
Proof.
  intros Hel Hw Hacts. revert w Hw.
  induction Hacts as [|a acts Ha _ IH]; intros w Hw; [done|].
  destruct (MultiStepForm_total props (state w) Hel) as [view Hview].
  simpl session. rewrite (activate_enabled _ a _ _ Hview).
  assert ((if enabled props a (state w) then transition props a w else w)
          = transition props a w) as ->.
  { destruct a; [| |discriminate Ha]; unfold enabled.
    - destruct (Z.eqb_spec (currentStep (state w)) (stepCount props - 1));
        cbn [negb]; [|done]. by rewrite transition_Next_last.
    - destruct (Z.eqb_spec (currentStep (state w)) 0); cbn [negb]; [|done].
      by rewrite transition_Previous_first. }
  rewrite run_cons. apply IH. apply transition_in_range; [lia|done].
Qed.

Lemma clicks_agree_with_handlers_witness :
  session abcWizard [Previous; Next; Next; Next; Previous] freshWorld =
  Ok (run abcWizard [Previous; Next; Next; Next; Previous] freshWorld).
Proof.
  apply clicks_agree_with_handlers.
  - repeat constructor.
  - split; vm_compute; discriminate.
  - repeat constructor.
Defined.

(** X5. A click calls the completion callback only if it is a Submit click
    made on the last step: a Next or a Previous click never calls it, and
    a Submit click made elsewhere changes nothing at all. No click writes
    the bag. *)
Theorem callback_only_on_last_step {Ext} (props : MultiStepFormProps Ext)
    (a : Action) (w w' : World Ext) :
  activate props a w = Ok w' ->
  formData (state w') = formData (state w) /\
  (isSubmit a = false -> outside w' = outside w) /\
  (currentStep (state w) <> stepCount props - 1 ->
   outside w' = outside w /\ (a = Submit -> w' = w)).
Proof.
  intros Hact.
  destruct (MultiStepForm props (state w)) as [view|e] eqn:Hview;
    [|unfold activate in Hact; rewrite Hview in Hact; discriminate].
  rewrite (activate_enabled _ a _ _ Hview) in Hact. injection Hact as <-.
  split; [|split].
  - by destruct (enabled props a (state w)), a.
  - intros Ha. by destruct (enabled props a (state w)), a.
  - intros Hne. apply Z.eqb_neq in Hne.
    destruct a; unfold enabled.
    + rewrite Hne. by split.
    + by destruct (negb _).
    + by rewrite Hne.
Qed.

Lemma callback_only_on_last_step_witness :
  exists w',
    activate abcWizard Submit (worldAt 1 bagX1) = Ok w' /\
    w' = worldAt 1 bagX1.
Proof.
  eexists. split; [reflexivity|].
  destruct (callback_only_on_last_step abcWizard Submit (worldAt 1 bagX1) _ eq_refl)
    as (_ & _ & Hoff).
  apply Hoff; [vm_compute; discriminate | reflexivity].
Defined.

Lemma transition_formData {Ext} (props : MultiStepFormProps Ext) (a : Action)
    (w : World Ext) :
  formData (state (transition props a w)) = formData (state w).
Proof. by destruct a. Qed.

(** X6. Over a whole session the wizard never writes the bag, and the
    completion callback is only ever applied to that bag: run by the
    handlers, once per Submit of the sequence; clicked at the screen, at
    most once per Submit click. *)
Theorem callback_calls_of_a_session {Ext} (props : MultiStepFormProps Ext)
    (acts : list Action) (w : World Ext) :
  formData (state (run props acts w)) = formData (state w) /\
  outside (run props acts w) =
    Nat.iter (length (List.filter isSubmit acts))
             (onSubmit props (formData (state w))) (outside w) /\
  (forall w', session props acts w = Ok w' ->
     formData (state w') = formData (state w) /\
     exists m : nat,
       (m <= length (List.filter isSubmit acts))%nat /\
       outside w' = Nat.iter m (onSubmit props (formData (state w))) (outside w)).
Proof.
  revert w. induction acts as [|a acts IH]; intros w.
  - split; [done|]. split; [done|]. intros w' [= <-]. split; [done|].
    by exists 0%nat.
  - destruct (IH (transition props a w)) as (Hbag & Hout & _).
    rewrite transition_formData in Hbag, Hout.
    split; [by rewrite run_cons|]. split.
    + rewrite run_cons, Hout. destruct a; try done.
      simpl List.filter. simpl length. by rewrite Nat.iter_succ_r.
    + intros w'. simpl session.
      destruct (activate props a w) as [w1|e] eqn:Hact; simpl; [|discriminate].
      intros Hses. destruct (IH w1) as (_ & _ & Hrest).
      destruct (Hrest w' Hses) as (Hbag' & m & Hm & Hout').
      destruct (activate_inv _ _ _ _ Hact) as [-> | ->].
      * split; [done|]. exists m. split; [|done].
        destruct a; simpl; lia.
      * rewrite transition_formData in Hbag', Hout'. split; [done|].
        destruct a; simpl in *; try (exists m; split; [lia|done]).
        exists (S m). split; [lia|]. by rewrite Nat.iter_succ_r.
Qed.

Lemma callback_calls_of_a_session_witness :
  formData (state (worldAt 1 bagX1)) = bagX1 /\
  exists m : nat,
    (m <= 1)%nat /\
    outside (worldAt 1 bagX1) = Nat.iter m (recordCall bagX1) [].
Proof.
  refine (proj2 (proj2 (callback_calls_of_a_session abcWizard [Submit; Next]
                          (worldAt 0 bagX1))) (worldAt 1 bagX1) _).
  reflexivity.
Defined.

(** ** The setters of the context *)

(** X7. A descendant that sets the step index through the context can put it
    out of range; one click repairs it. Set beyond the last step, the
    index leaves Next on screen and a Next click brings it to the last
    step; set below 0, it leaves Previous enabled and a Previous click
    brings it to 0. The bag is as it was. *)
Theorem out_of_range_index_recovers {Ext} (props : MultiStepFormProps Ext)
    (w : World Ext) (k : Z) :
  Forall (fun node => isElement node = true) (toArray (children props)) ->
  let w1 := setCurrentStep (FormProvider (state w)) (NewValue k) w in
  currentStep (state w1) = k /\
  formData (state w1) = formData (state w) /\
  (stepCount props - 1 < k ->
   exists w2, activate props Next w1 = Ok w2 /\
              currentStep (state w2) = stepCount props - 1) /\
  (k < 0 ->
   exists w2, activate props Previous w1 = Ok w2 /\
              currentStep (state w2) = 0).
Proof.
  intros Hel w1. split; [done|]. split; [done|].
  destruct (MultiStepForm_total props (state w1) Hel) as [view Hview].
  split; intros Hk; eexists;
    (split; [apply (activate_enabled _ _ _ _ Hview)|]); unfold enabled.
  - replace (currentStep (state w1) =? stepCount props - 1) with false
      by (symmetry; apply Z.eqb_neq; simpl; lia).
    cbn [negb]. rewrite transition_Next. simpl. lia.
  - replace (currentStep (state w1) =? 0) with false
      by (symmetry; apply Z.eqb_neq; simpl; lia).
    cbn [negb]. rewrite transition_Previous. simpl. lia.
Qed.

Lemma out_of_range_index_recovers_witness :
  (exists w2,
      activate abcWizard Next
        (setCurrentStep (FormProvider initialState) (NewValue 7) freshWorld) = Ok w2 /\
      currentStep (state w2) = 2) /\
  (exists w2,
      activate abcWizard Previous
        (setCurrentStep (FormProvider initialState) (NewValue (-4)) freshWorld) = Ok w2 /\
      currentStep (state w2) = 0).
Proof.
  assert (Forall (fun node => isElement node = true)
            (toArray (children abcWizard))) as Hel by repeat constructor.
  destruct (out_of_range_index_recovers abcWizard freshWorld 7 Hel)
    as (_ & _ & Hhigh & _).
  destruct (out_of_range_index_recovers abcWizard freshWorld (-4) Hel)
    as (_ & _ & _ & Hlow).
  split.
  - apply Hhigh. reflexivity.
  - apply Hlow. reflexivity.
Defined.

(** X8. A write of the bag through the context reaches the completion
    callback: after a descendant applies [setFormData] on the last step,
    the step index is as before, and a Submit click calls the callback on
    the bag as written, not on the one of before. The two setters act on
    separate cells and commute. *)
Theorem bag_write_reaches_callback {Ext} (props : MultiStepFormProps Ext)
    (w : World Ext) (action : SetStateAction FormData) :
  Forall (fun node => isElement node = true) (toArray (children props)) ->
  currentStep (state w) = stepCount props - 1 ->
  let w1 := setFormData (FormProvider (state w)) action w in
  currentStep (state w1) = currentStep (state w) /\
  formData (state w1) = applyAction action (formData (state w)) /\
  activate props Submit w1 =
    Ok {| state := state w1;
          outside := onSubmit props (applyAction action (formData (state w)))
                       (outside w) |} /\
  (forall (st st' : FormState) (step : SetStateAction Z),
      setCurrentStep (FormProvider st) step w1 =
      setFormData (FormProvider st') action
        (setCurrentStep (FormProvider st) step w)).
Proof.
  intros Hel Hlast w1. split; [done|]. split; [done|]. split; [|done].
  destruct (MultiStepForm_total props (state w1) Hel) as [view Hview].
  rewrite (activate_enabled _ _ _ _ Hview). unfold enabled.
  replace (currentStep (state w1) =? stepCount props - 1) with true
    by (symmetry; apply Z.eqb_eq; exact Hlast).
  by rewrite transition_Submit.
Qed.

Lemma bag_write_reaches_callback_witness :
  activate abcWizard Submit
    (setFormData (FormProvider {| currentStep := 2; formData := ∅ |})
       (NewValue bagX1) (worldAt 2 ∅)) =
  Ok {| state := {| currentStep := 2; formData := bagX1 |};
        outside := [bagX1] |}.
Proof.
  assert (Forall (fun node => isElement node = true)
            (toArray (children abcWizard))) as Hel by repeat constructor.
  destruct (bag_write_reaches_callback abcWizard (worldAt 2 ∅) (NewValue bagX1)
              Hel eq_refl) as (_ & _ & Hsub & _).
  exact Hsub.
Defined.

(** ** The stepper and the step on screen *)

(** A step of the stepper of a render, by its position. *)
Lemma rendered_item {Ext} (props : MultiStepFormProps Ext) (st : FormState)
    (view : WizardView Ext) (i : nat) (v : StepItemView) :
  MultiStepForm props st = Ok view ->
  items (stepper view) !! i = Some v ->
  key v = Z.of_nat i + 1 /\
  (exists content,
      toArray (children props) !! i = Some (RElement (caption v) content)) /\
  showsCompleted v = (Z.of_nat i <? currentStep st) /\
  showsActive v = (currentStep st =? Z.of_nat i) /\
  showsPending v = (currentStep st <? Z.of_nat i) /\
  connector v =
    (if Z.of_nat i <? stepCount props - 1
     then Some (if Z.of_nat i <? currentStep st then "#788191" else "#EAECF0")
     else None).
Proof.
  intros Hview Hv.
  destruct (MultiStepForm_inv _ _ _ Hview) as (data & Hdata & Hst & _ & _).
  destruct (stepsData_inv _ _ Hdata) as [Hlen Hall].
  rewrite Hst in Hv.
  destruct (items_lookup _ _ _ _ _ Hv)
    as (s & Hs & Hkey & Hcap & Hc & Ha & Hp & Hconn).
  destruct (Hall i s Hs) as [Hstep [content Helem]].
  rewrite Hstep in *. rewrite Hlen in Hconn. fold (stepCount props) in Hconn.
  split; [done|]. split; [exists content; by rewrite Hcap|].
  rewrite Hc, Ha, Hp, Hconn, Z.gtb_ltb, Z.geb_leb.
  repeat split.
  - destruct (Z.ltb_spec (Z.of_nat i + 1) (currentStep st + 1)),
             (Z.ltb_spec (Z.of_nat i) (currentStep st)); (done || lia).
  - destruct (Z.eqb_spec (currentStep st + 1) (Z.of_nat i + 1)),
             (Z.eqb_spec (currentStep st) (Z.of_nat i)); (done || lia).
  - destruct (Z.leb_spec (Z.of_nat i + 1) (currentStep st + 1)),
             (Z.ltb_spec (currentStep st) (Z.of_nat i)); (done || lia).
  - destruct (Z.ltb_spec (Z.of_nat i + 1) (currentStep st + 1)),
             (Z.ltb_spec (Z.of_nat i) (currentStep st)); (done || lia).
Qed.

Lemma rendered_items_length {Ext} (props : MultiStepFormProps Ext)
    (st : FormState) (view : WizardView Ext) :
  MultiStepForm props st = Ok view ->
  Z.of_nat (length (items (stepper view))) = stepCount props.
Proof.
  intros Hview.
  destruct (MultiStepForm_inv _ _ _ Hview) as (data & Hdata & -> & _ & _).
  destruct (stepsData_inv _ _ Hdata) as [Hlen _].
  simpl. rewrite length_imap. unfold stepCount. by rewrite Hlen.
Qed.

(** X9. With the step index in range, the step on screen is the child at that
    position, and it is the step the stepper shows as active: the title
    the stepper emphasises is the title of the step on screen. *)
Theorem shown_step_is_active_step {Ext} (props : MultiStepFormProps Ext)
    (st : FormState) (view : WizardView Ext) :
  MultiStepForm props st = Ok view ->
  0 <= currentStep st <= stepCount props - 1 ->
  exists (t : string) (content : ReactNode) (v : StepItemView),
    shown view = Some (RElement t content) /\
    toArray (children props) !! Z.to_nat (currentStep st)
      = Some (RElement t content) /\
    items (stepper view) !! Z.to_nat (currentStep st) = Some v /\
    caption v = t /\
    showsActive v = true /\
    shownStates v = [Active].
Proof.
  intros Hview Hrange.
  pose proof (rendered_items_length _ _ _ Hview) as Hlen.
  destruct (lookup_lt_is_Some_2 (items (stepper view))
              (Z.to_nat (currentStep st))) as [v Hv]; [lia|].
  destruct (rendered_item _ _ _ _ _ Hview Hv)
    as (_ & [content Hel] & Hc & Ha & Hp & _).
  rewrite Z2Nat.id in Hc, Ha, Hp by lia.
  exists (caption v), content, v.
  destruct (MultiStepForm_inv _ _ _ Hview) as (_ & _ & _ & -> & _).
  unfold index.
  replace (0 <=? currentStep st) with true by (symmetry; apply Z.leb_le; lia).
  repeat split; try done.
  - rewrite Ha. apply Z.eqb_refl.
  - unfold shownStates. rewrite Hc, Ha, Hp, Z.ltb_irrefl, Z.eqb_refl. done.
Qed.

Lemma shown_step_is_active_step_witness :
  exists view (v : StepItemView),
    MultiStepForm abcWizard {| currentStep := 1; formData := bagX1 |} = Ok view /\
    shown view = Some (RElement "B" (RText "second")) /\
    items (stepper view) !! 1%nat = Some v /\
    caption v = "B" /\ showsActive v = true.
Proof.
  destruct (shown_step_is_active_step abcWizard
              {| currentStep := 1; formData := bagX1 |} _ eq_refl)
    as (t & content & v & Hshown & _ & Hv & Hcap & Hact & _).
  { split; vm_compute; discriminate. }
  eexists. exists v. split; [reflexivity|].
  injection Hshown as <- <-. by repeat split.
Defined.

(** X10. With the step index out of range nothing raises: no step is on
    screen and no step is active. Below 0 every step is pending; beyond
    the last step every step is completed and every connector has the
    colour of completion. *)
Theorem out_of_range_render {Ext} (props : MultiStepFormProps Ext)
    (st : FormState) (view : WizardView Ext) :
  MultiStepForm props st = Ok view ->
  (currentStep st < 0 ->
   shown view = None /\
   forall (i : nat) (v : StepItemView),
     items (stepper view) !! i = Some v -> shownStates v = [Pending]) /\
  (stepCount props - 1 < currentStep st ->
   shown view = None /\
   forall (i : nat) (v : StepItemView),
     items (stepper view) !! i = Some v ->
     shownStates v = [Completed] /\
     (connector v = None \/ connector v = Some "#788191")).
Proof.
  intros Hview.
  pose proof (rendered_items_length _ _ _ Hview) as Hlen.
  destruct (MultiStepForm_inv _ _ _ Hview) as (_ & _ & _ & Hshown & _).
  split; intros Hcs.
  - split.
    + rewrite Hshown. unfold index.
      by replace (0 <=? currentStep st) with false
        by (symmetry; apply Z.leb_gt; lia).
    + intros i v Hv.
      destruct (rendered_item _ _ _ _ _ Hview Hv) as (_ & _ & Hc & Ha & Hp & _).
      unfold shownStates. rewrite Hc, Ha, Hp.
      destruct (Z.ltb_spec (Z.of_nat i) (currentStep st)),
               (Z.eqb_spec (currentStep st) (Z.of_nat i)),
               (Z.ltb_spec (currentStep st) (Z.of_nat i)); (done || lia).
  - split.
    + rewrite Hshown. unfold index, stepCount in *.
      destruct (0 <=? currentStep st); [|done].
      apply lookup_ge_None. lia.
    + intros i v Hv.
      pose proof (lookup_lt_Some _ _ _ Hv) as Hi.
      destruct (rendered_item _ _ _ _ _ Hview Hv)
        as (_ & _ & Hc & Ha & Hp & Hconn).
      unfold shownStates. rewrite Hc, Ha, Hp, Hconn.
      destruct (Z.ltb_spec (Z.of_nat i) (currentStep st)),
               (Z.eqb_spec (currentStep st) (Z.of_nat i)),
               (Z.ltb_spec (currentStep st) (Z.of_nat i)); try lia.
      split; [done|]. destruct (_ <? _ - 1); auto.
Qed.

Lemma out_of_range_render_witness :
  exists view,
    MultiStepForm abcWizard {| currentStep := 5; formData := bagX1 |} = Ok view /\
    shown view = None /\
    map shownStates (items (stepper view)) =
      [[Completed]; [Completed]; [Completed]].
Proof.
  eexists. split; [reflexivity|].
  destruct (out_of_range_render abcWizard
              {| currentStep := 5; formData := bagX1 |} _ eq_refl) as [_ Hhigh].
  destruct Hhigh as [Hshown _]; [reflexivity|].
  split; [exact Hshown | reflexivity].
Defined.

(** X11. The keys of the steps of the stepper are the ordinals 1, 2, ..., in
    order: no two steps of the stepper share a key. *)
Theorem stepper_keys_distinct {Ext} (props : MultiStepFormProps Ext)
    (st : FormState) (view : WizardView Ext) :
  MultiStepForm props st = Ok view ->
  map key (items (stepper view)) = seqZ 1 (stepCount props) /\
  NoDup (map key (items (stepper view))).
Proof.
  intros Hview.
  pose proof (rendered_items_length _ _ _ Hview) as Hlen.
  assert (map key (items (stepper view)) = seqZ 1 (stepCount props)) as Hkeys.
  { apply (list_eq_same_length _ _ (length (items (stepper view)))).
    - rewrite length_seqZ. lia.
    - by rewrite length_map.
    - intros i x y Hi Hx Hy.
      rewrite list_lookup_fmap in Hx.
      destruct (items (stepper view) !! i) as [v|] eqn:Hv; [|discriminate].
      injection Hx as <-.
      destruct (rendered_item _ _ _ _ _ Hview Hv) as (Hkey & _).
      apply lookup_seqZ in Hy as [-> _]. lia. }
  split; [done|]. rewrite Hkeys. apply NoDup_seqZ.
Qed.

Lemma stepper_keys_distinct_witness :
  exists view,
    MultiStepForm abcWizard initialState = Ok view /\
    map key (items (stepper view)) = [1; 2; 3].
Proof.
  eexists. split; [reflexivity|].
  exact (proj1 (stepper_keys_distinct abcWizard initialState _ eq_refl)).
Defined.

(** X12. Whatever step list and current ordinal [EnhancedStepper] is given,
    the visual cues of each step agree: the circle is filled exactly on a
    completed or an active step and empty exactly on a pending one; the
    enlarged circle, the dark title and the dot with a shadow go with the
    bold title; a step is never both completed and active; and the last
    step, and only it, has no connector after it. *)
Theorem stepper_cues_agree (steps : list StepInfo) (currentStep : Z)
    (sp : StyleProps) (i : nat) (v : StepItemView) :
  items (EnhancedStepper steps currentStep sp) !! i = Some v ->
  filledCircle v = showsCompleted v || showsActive v /\
  showsPending v = negb (filledCircle v) /\
  showsCompleted v && showsActive v = false /\
  enlarged v = showsActive v /\
  darkTitle v = showsActive v /\
  shadowDot v = showsActive v /\
  (connector v = None <-> S i = length steps).
Proof.
  intros Hv. pose proof (lookup_lt_Some _ _ _ Hv) as Hi.
  simpl in Hv, Hi. rewrite length_imap in Hi.
  rewrite list_lookup_imap in Hv.
  destruct (steps !! i) as [s|]; simpl in Hv; [|discriminate].
  injection Hv as <-.
  unfold filledCircle, showsPending, showsCompleted, showsActive, enlarged,
    darkTitle, shadowDot. simpl.
  rewrite Z.gtb_ltb, Z.geb_leb.
  destruct (Z.ltb_spec (step s) currentStep),
           (Z.eqb_spec currentStep (step s)),
           (Z.leb_spec (step s) currentStep); try lia;
    (repeat split; try done);
    destruct (Z.ltb_spec (Z.of_nat i) (Z.of_nat (length steps) - 1));
    (done || lia).
Qed.

Lemma stepper_cues_agree_witness :
  exists v,
    items (EnhancedStepper [{| step := 1; title := "A" |};
                            {| step := 2; title := "B" |}] 2 noStyle) !! 1%nat
      = Some v /\
    filledCircle v = true /\ enlarged v = true /\ connector v = None.
Proof.
  eexists. split; [reflexivity|].
  destruct (stepper_cues_agree [{| step := 1; title := "A" |};
                                {| step := 2; title := "B" |}] 2 noStyle 1 _ eq_refl)
    as (Hfill & _ & _ & Henl & _ & _ & Hconn).
  split; [exact Hfill|]. split; [exact Henl|]. apply Hconn. reflexivity.
Defined.

(** ** Style pass-through *)

Lemma prefix_app (s t : string) : String.prefix s (s ++ t) = true.
Proof.
  induction s as [|a s IH]; simpl; [by destruct t|].
  by destruct (Ascii.ascii_dec a a).
Qed.

Lemma prefix_withClass (base : string) (cls : option string) :
  String.prefix base (withClass base cls) = true.
Proof. apply prefix_app. Qed.

(** X13. Styling is presentation only. Two wizards with the same children and
    the same callback, whatever their class names and styles, render or
    raise alike, and their renders have the same steps in the stepper, the
    same step on screen and the same two buttons, bound to the same
    handlers. *)
Theorem style_does_not_change_behaviour {Ext}
    (props props' : MultiStepFormProps Ext) (st : FormState) :
  children props = children props' ->
  onSubmit props = onSubmit props' ->
  match MultiStepForm props st, MultiStepForm props' st with
  | Ok view, Ok view' =>
      items (stepper view) = items (stepper view') /\
      shown view = shown view' /\
      shownKey view = shownKey view' /\
      previousButton (navigation view) = previousButton (navigation view') /\
      mainButton (navigation view) = mainButton (navigation view')
  | Throw e, Throw e' => e = e'
  | _, _ => False
  end.
Proof.
  intros Hch Hcb. unfold MultiStepForm. rewrite <- Hch.
  destruct (stepsData _) as [data|e]; simpl; [|done].
  by rewrite <- Hch, <- Hcb.
Qed.

Lemma style_does_not_change_behaviour_witness :
  exists view view',
    MultiStepForm abcWizard initialState = Ok view /\
    MultiStepForm styledWizard initialState = Ok view' /\
    items (stepper view) = items (stepper view') /\
    mainButton (navigation view) = mainButton (navigation view') /\
    view_className view <> view_className view'.
Proof.
  pose proof (style_does_not_change_behaviour abcWizard styledWizard
                initialState eq_refl eq_refl) as H.
  do 2 eexists. split; [reflexivity|]. split; [reflexivity|].
  destruct H as (Hitems & _ & _ & _ & Hmain).
  split; [exact Hitems|]. split; [exact Hmain|]. discriminate.
Defined.

(** X14. A class name passed through never replaces the classes of the
    component: the class of the [div] of [Step], of the stepper, of the
    navigation bar and of the wizard starts with the component's own
    classes, whatever the caller passes; the style is passed as it is; and
    no class name and the empty class name give the same class. *)
Theorem own_classes_are_kept :
  (forall (children : ReactNode) (title : string) (sp : StyleProps),
      String.prefix "mt-4" (step_className (Step children title sp)) = true /\
      step_style (Step children title sp) = style sp /\
      step_children (Step children title sp) = children) /\
  (forall (steps : list StepInfo) (currentStep : Z) (sp : StyleProps),
      String.prefix
        "flex mx-auto items-center justify-center font-sans w-max overflow-x-auto mb-2"
        (stepper_className (EnhancedStepper steps currentStep sp)) = true /\
      stepper_style (EnhancedStepper steps currentStep sp) = style sp) /\
  (forall (H : Type) (isFirstStep isLastStep : bool) (onNext onPrev onSubmit : H)
          (sp : StyleProps),
      String.prefix "flex justify-between mt-8"
        (nav_className
           (Navigation isFirstStep isLastStep onNext onPrev onSubmit sp)) = true /\
      nav_style (Navigation isFirstStep isLastStep onNext onPrev onSubmit sp)
        = style sp) /\
  (forall (Ext : Type) (props : MultiStepFormProps Ext) (st : FormState)
          (view : WizardView Ext),
      MultiStepForm props st = Ok view ->
      String.prefix "mx-auto p-2 sm:p-4" (view_className view) = true /\
      view_style view = style (ownStyle props) /\
      stepper_style (stepper view) = style (spread (stepperProps props)) /\
      nav_style (navigation view) = style (spread (navigationProps props))) /\
  (forall base : string, withClass base None = withClass base (Some "")).
Proof.
  split; [intros; split; [apply prefix_withClass|done]|].
  split; [intros; split; [apply prefix_withClass|done]|].
  split; [intros; split; [apply prefix_withClass|done]|].
  split; [|done].
  intros Ext props st view Hview. unfold MultiStepForm in Hview.
  destruct (stepsData _) as [data|e]; simpl in Hview; [|discriminate].
  injection Hview as <-. split; [apply prefix_withClass|done].
Qed.

Lemma own_classes_are_kept_witness :
  exists view,
    MultiStepForm styledWizard initialState = Ok view /\
    view_className view = "mx-auto p-2 sm:p-4 card" /\
    String.prefix "mx-auto p-2 sm:p-4" (view_className view) = true.
Proof.
  destruct own_classes_are_kept as (_ & _ & _ & Hwiz & _).
  eexists. split; [reflexivity|]. split; [reflexivity|].
  exact (proj1 (Hwiz _ styledWizard initialState _ eq_refl)).
Defined.
